(** * flask_example.py: models, schemas and route handlers

    A shallow embedding of [src/flask-marshmallow/flask_example.py].
    Python dictionaries are finite maps from strings, Python exceptions are
    the [Raise] results of an exception-and-state monad, and the state is the
    relational store together with the request-scoped object [g]. *)

From stdpp Require Import gmap strings list fin_maps.
From Stdlib Require Import ZArith Ascii String.

Set Warnings "-register-all".
Open Scope string_scope.

(** ** Python values that travel as JSON *)

Inductive json : Type :=
| JNull
| JBool (b : bool)
| JNum (n : Z)
| JStr (s : string)
| JArr (l : list json)
| JObj (d : gmap string json).

(** Python truth value: [None], [False], [0], the empty string, the empty
    list and the empty dict are false, everything else is true. *)
Definition truthy (v : json) : bool :=
  match v with
  | JNull => false
  | JBool b => b
  | JNum n => negb (Z.eqb n 0)
  | JStr s => negb (String.eqb s "")
  | JArr l => match l with [] => false | _ :: _ => true end
  | JObj d => negb (bool_decide (d = ∅))
  end.

(** [dict.get(key)]: the value, or [None] when the key is absent. *)
Definition dict_get (d : gmap string json) (key : string) : json :=
  default JNull (d !! key).

(** ** Exceptions *)

Inductive exn : Type :=
| AttributeError
| NameError
| ValueError
| KeyError
| IndexError
| IntegrityError
| ValidationError (messages : json).

Inductive result (A : Type) : Type :=
| Ok (a : A)
| Raise (e : exn).
Arguments Ok {A} a.
Arguments Raise {A} e.

(** Sequencing stops at the first exception; [x ← c; k] is stdpp's
    notation for [mbind]. *)
#[global] Instance result_ret : MRet result := @Ok.
#[global] Instance result_bind : MBind result := fun A B k r =>
  match r with
  | Ok a => k a
  | Raise e => Raise e
  end.
#[global] Instance result_fmap : FMap result := fun A B f r =>
  match r with
  | Ok a => Ok (f a)
  | Raise e => Raise e
  end.

(** ** Strings *)

Definition space : ascii := " "%char.

(** [s.split(' ')]: cut at every single space; [n] spaces give [n + 1]
    pieces, empty ones included. *)
Fixpoint split_space (s : string) : list string :=
  match s with
  | EmptyString => [""]
  | String c rest =>
      if Ascii.eqb c space then "" :: split_space rest
      else match split_space rest with
           | w :: ws => String c w :: ws
           | [] => [String c ""]
           end
  end.

(** [a, b = xs]: two-variable unpacking. *)
Definition unpack2 {A} (xs : list A) : result (A * A) :=
  match xs with
  | [a; b] => Ok (a, b)
  | _ => Raise ValueError
  end.

Fixpoint count_spaces (s : string) : nat :=
  match s with
  | EmptyString => 0
  | String c rest =>
      if Ascii.eqb c space then S (count_spaces rest) else count_spaces rest
  end.

(** [str(x)] of a nullable text column, as [str.format] applies it. *)
Definition py_str (x : option string) : string :=
  match x with
  | Some s => s
  | None => "None"
  end.

Definition is_char (c : ascii) (x : string) : bool :=
  String.eqb (String c EmptyString) x.

(** [template.format(a, b, ...)] for a template whose replacement fields
    are all the automatic one, an opening brace followed by a closing brace:
    each takes the next argument. *)
Fixpoint format (template : string) (args : list string) : result string :=
  match template with
  | EmptyString => Ok ""
  | String c rest =>
      match rest with
      | String c' rest' =>
          if is_char c "{" && is_char c' "}" then
            match args with
            | a :: args' => r ← format rest' args'; Ok (a +:+ r)
            | [] => Raise IndexError
            end
          else r ← format rest args; Ok (String c r)
      | EmptyString => Ok (String c "")
      end
  end.

(** ** Dates *)

Module datetime.
(** A naive [datetime.datetime], field by field. *)
Record obj : Type := mk {
  year : N;
  month : N;
  day : N;
  hour : N;
  minute : N;
  second : N;
  microsecond : N
}.

Definition digit (n : N) : ascii := ascii_of_N (48 + n mod 10).

(** The last [width] decimal digits of [n], zero-padded. *)
Fixpoint digits (width : nat) (n : N) : string :=
  match width with
  | O => ""
  | S w => digits w (n / 10) +:+ String (digit n) ""
  end.

(** What [fields.DateTime] dumps: the ISO-8601 text of the value taken as
    UTC; the fraction is left out when the microseconds are zero. *)
Definition isoformat (t : obj) : string :=
  digits 4 (year t) +:+ "-" +:+ digits 2 (month t) +:+ "-"
  +:+ digits 2 (day t) +:+ "T" +:+ digits 2 (hour t) +:+ ":"
  +:+ digits 2 (minute t) +:+ ":" +:+ digits 2 (second t)
  +:+ (if N.eqb (microsecond t) 0 then ""
       else "." +:+ digits 6 (microsecond t))
  +:+ "+00:00".
End datetime.

(** ** Models *)

(** What attribute lookup on a mapped class can give back.  The classes
    derive from the plain [declarative_base()], so their attributes are the
    ones of the class bodies and the base's [metadata]. *)
Inductive class_attr : Type :=
| TableName (name : string)
| ColumnAttr (key : string)
| RelationshipAttr (target : string)
| MetaData.

Definition Base : list (string * class_attr) :=
  [("metadata", MetaData)].

Fixpoint assoc {A} (key : string) (l : list (string * A)) : option A :=
  match l with
  | [] => None
  | (k, v) :: rest => if String.eqb k key then Some v else assoc key rest
  end.

(** [cls.name] on a class with body [body] deriving from [Base]. *)
Definition class_getattr (body : list (string * class_attr)) (name : string)
  : result class_attr :=
  match assoc name (body ++ Base) with
  | Some a => Ok a
  | None => Raise AttributeError
  end.

(** [attr.method(args)] for the [Query] methods [all], [get] and
    [filter_by]: none of the attribute objects of a mapped class has them. *)
Definition call_query_method {R} (attr : class_attr) (method : string)
    (args : list json) : result R :=
  Raise AttributeError.

Module Author.
Record obj : Type := mk {
  id : option Z;
  first : option string;
  last : option string
}.

Definition body : list (string * class_attr) :=
  [("__tablename__", TableName "author");
   ("id", ColumnAttr "id");
   ("first", ColumnAttr "first");
   ("last", ColumnAttr "last");
   ("quotes", RelationshipAttr "Quote")].

(** [Author.query] *)
Definition query : result class_attr := class_getattr body "query".
End Author.

Module Quote.
Record obj : Type := mk {
  id : option Z;
  content : option string;
  author_id : option Z;
  author : option Author.obj;
  posted_at : option datetime.obj
}.

Definition body : list (string * class_attr) :=
  [("__tablename__", TableName "quote");
   ("id", ColumnAttr "id");
   ("content", ColumnAttr "content");
   ("author_id", ColumnAttr "author_id");
   ("author", RelationshipAttr "Author");
   ("posted_at", ColumnAttr "posted_at")].

(** [Quote.query] *)
Definition query : result class_attr := class_getattr body "query".
End Quote.

(** ** Store, request context and the handler monad *)

Record Db : Type := mkDb {
  author_table : list Author.obj;
  quote_table : list Quote.obj
}.

(** [clock] is what [datetime.datetime.utcnow()] reads; [g_db_session]
    tells whether [g.db_session] is bound in the current request context. *)
Record World : Type := mkWorld {
  database : Db;
  clock : datetime.obj;
  g_db_session : bool
}.

Definition M (A : Type) : Type := World -> result A * World.

#[global] Instance M_ret : MRet M := fun A a w => (Ok a, w).
#[global] Instance M_bind : MBind M := fun A B k m w =>
  match m w with
  | (Ok a, w') => k a w'
  | (Raise e, w') => (Raise e, w')
  end.

Definition raise {A} (e : exn) : M A := fun w => (Raise e, w).
Definition lift {A} (r : result A) : M A := fun w => (r, w).

(** [try: m except IntegrityError: handler] *)
Definition try_except_IntegrityError {A} (m : M A) (handler : M A) : M A :=
  fun w =>
    match m w with
    | (Raise IntegrityError, w') => handler w'
    | r => r
    end.

(** Names bound at module level when a request is served. *)
Definition module_globals : list string :=
  ["datetime"; "Flask"; "jsonify"; "request"; "g"; "declarative_base";
   "Column"; "Integer"; "String"; "ForeignKey"; "DateTime"; "relationship";
   "backref"; "IntegrityError"; "create_engine"; "Session"; "sessionmaker";
   "Schema"; "fields"; "ValidationError"; "pre_load"; "app"; "engine";
   "Base"; "Author"; "Quote"; "AuthorSchema"; "must_not_be_blank";
   "QuoteSchema"; "author_schema"; "authors_schema"; "quote_schema";
   "quotes_schema"; "before_request"; "teardown_request"; "get_authors";
   "get_author"; "get_quotes"; "get_quote"; "new_quote"].

(** Reading a global name. *)
Definition load_global (name : string) : result string :=
  if existsb (String.eqb name) module_globals then Ok name
  else Raise NameError.

Inductive orm_obj : Type :=
| AuthorObj (author : Author.obj)
| QuoteObj (quote : Quote.obj).

(** [name.session.method(args)] for a module-level [name]: none of the
    module's globals has a [session] attribute. *)
Definition call_session_method (name method : string) (args : list orm_obj)
  : M unit :=
  lift (_ ← load_global name; Raise AttributeError).

(** [datetime.datetime.utcnow()] *)
Definition utcnow : M datetime.obj := fun w => (Ok (clock w), w).

(** [g.db_session.query(Quote).all()] *)
Definition session_query_all_quotes : M (list Quote.obj) :=
  fun w =>
    if g_db_session w then (Ok (quote_table (database w)), w)
    else (Raise AttributeError, w).

(** ** Schemas (marshmallow 2: [load] and [dump] return data and errors) *)

Definition messages (msg : string) : json := JArr [JStr msg].

(** The custom validator. *)
Definition must_not_be_blank (data : json) : result unit :=
  if negb (truthy data) then Raise (ValidationError (messages "Data not provided."))
  else Ok tt.

Definition no_validator (data : json) : result unit := Ok tt.

(** [fields.Str(validate=...)] on a value that is present. *)
Definition Str_deserialize (validate : json -> result unit) (value : json)
  : result json :=
  match value with
  | JNull => Raise (ValidationError (messages "Field may not be null."))
  | JStr s => _ ← validate (JStr s); Ok (JStr s)
  | _ => Raise (ValidationError (messages "Not a valid string."))
  end.

(** One field of the unmarshalling loop: a missing value is skipped unless
    the field is required; a [ValidationError] of the field is stored under
    its name, any other exception propagates. *)
Definition unmarshal_field (name : string) (required : bool)
    (deserialize : json -> result json) (d : gmap string json)
    (acc : gmap string json * gmap string json)
  : result (gmap string json * gmap string json) :=
  let '(data, errors) := acc in
  match d !! name with
  | None =>
      if required
      then Ok (data, <[name := messages "Missing data for required field."]> errors)
      else Ok acc
  | Some raw =>
      match deserialize raw with
      | Ok v => Ok (<[name := v]> data, errors)
      | Raise (ValidationError msgs) => Ok (data, <[name := msgs]> errors)
      | Raise e => Raise e
      end
  end.

Definition invalid_input_type : gmap string json :=
  {[ "_schema" := messages "Invalid input type." ]}.

Definition int_or_null (x : option Z) : json := from_option JNum JNull x.
Definition str_or_null (x : option string) : json := from_option JStr JNull x.

Module AuthorSchema.
Definition format_name (author : Author.obj) : result string :=
  format "{}, {}" [py_str (Author.last author); py_str (Author.first author)].

(** [author_schema.dump(author).data] *)
Definition dump (author : Author.obj) : result (gmap string json) :=
  formatted_name ← format_name author;
  Ok (<["id" := int_or_null (Author.id author)]>
      (<["first" := str_or_null (Author.first author)]>
      (<["last" := str_or_null (Author.last author)]>
      (<["formatted_name" := JStr formatted_name]> ∅)))).

(** Dumping [None] finds no attribute and emits no field. *)
Definition dump_opt (author : option Author.obj) : result (gmap string json) :=
  match author with
  | Some a => dump a
  | None => Ok ∅
  end.

(** [authors_schema.dump(authors).data] *)
Definition dump_many (authors : list Author.obj) : result json :=
  dumped ← mapM dump authors;
  Ok (JArr (JObj <$> dumped)).

(** [load]: [id] and [formatted_name] are dump-only. *)
Definition load (value : json)
  : result (gmap string json * gmap string json) :=
  match value with
  | JObj d =>
      acc ← unmarshal_field "first" false (Str_deserialize no_validator) d (∅, ∅);
      unmarshal_field "last" false (Str_deserialize no_validator) d acc
  | _ => Ok (∅, invalid_input_type)
  end.
End AuthorSchema.

(** [fields.Nested(AuthorSchema, validate=...)] on a value that is present. *)
Definition Nested_deserialize (validate : json -> result unit) (value : json)
  : result json :=
  match value with
  | JNull => Raise (ValidationError (messages "Field may not be null."))
  | _ =>
      '(data, errors) ← AuthorSchema.load value;
      if bool_decide (errors = ∅)
      then _ ← validate (JObj data); Ok (JObj data)
      else Raise (ValidationError (JObj errors))
  end.

(** The relationship [quote.author]: the object given to the constructor,
    else the row the foreign key points to. *)
Definition related_author (db : Db) (quote : Quote.obj) : option Author.obj :=
  match Quote.author quote with
  | Some a => Some a
  | None =>
      match Quote.author_id quote with
      | Some i =>
          find (fun a => bool_decide (Author.id a = Some i)) (author_table db)
      | None => None
      end
  end.

Module QuoteSchema.
(** The [pre_load] hook. *)
Definition process_author (data : json) : result json :=
  match data with
  | JObj d =>
      let author_name := dict_get d "author" in
      author_dict ←
        (if truthy author_name then
           match author_name with
           | JStr s =>
               '(first, last) ← unpack2 (split_space s);
               Ok (<["first" := JStr first]> (<["last" := JStr last]> ∅))
           | _ => Raise AttributeError
           end
         else Ok (∅ : gmap string json));
      Ok (JObj (<["author" := JObj author_dict]> d))
  | _ => Raise AttributeError
  end.

(** [quote_schema.load(json_data)]: the hook, then the fields [author]
    and [content]; [id] and [posted_at] are dump-only. *)
Definition load (json_data : json)
  : result (gmap string json * gmap string json) :=
  processed ← process_author json_data;
  match processed with
  | JObj d =>
      acc ← unmarshal_field "author" false
              (Nested_deserialize must_not_be_blank) d (∅, ∅);
      unmarshal_field "content" true (Str_deserialize must_not_be_blank) d acc
  | _ => Ok (∅, invalid_input_type)
  end.

(** [quote_schema.dump(quote).data] *)
Definition dump (db : Db) (quote : Quote.obj) : result (gmap string json) :=
  author ← match related_author db quote with
           | Some a => JObj <$> AuthorSchema.dump a
           | None => Ok JNull
           end;
  Ok (<["id" := int_or_null (Quote.id quote)]>
      (<["author" := author]>
      (<["content" := str_or_null (Quote.content quote)]>
      (<["posted_at" := from_option (fun t => JStr (datetime.isoformat t)) JNull
                          (Quote.posted_at quote)]> ∅)))).

Definition dump_opt (db : Db) (quote : option Quote.obj)
  : result (gmap string json) :=
  match quote with
  | Some q => dump db q
  | None => Ok ∅
  end.

(** [quotes_schema.dump(quotes).data], with [only=('id', 'content')] *)
Definition dump_many_only (quotes : list Quote.obj) : json :=
  JArr (map (fun q => JObj (<["id" := int_or_null (Quote.id q)]>
                            (<["content" := str_or_null (Quote.content q)]> ∅)))
            quotes).
End QuoteSchema.

(** ** Route handlers *)

Record response : Type := mkResponse {
  status : Z;
  body : json
}.

Definition jsonify (d : gmap string json) : response :=
  {| status := 200; body := JObj d |}.

(** [return resp, code] *)
Definition with_status (resp : response) (code : Z) : response :=
  {| status := code; body := body resp |}.

Definition message (text : string) : gmap string json :=
  {[ "message" := JStr text ]}.

(** [d[key]] *)
Definition getitem (d : gmap string json) (key : string) : result json :=
  match d !! key with
  | Some v => Ok v
  | None => Raise KeyError
  end.

(** [v[key]] for a value that may not be a dict. *)
Definition getitem_json (v : json) (key : string) : result json :=
  match v with
  | JObj d => getitem d key
  | _ => Raise KeyError
  end.

Definition text_of (v : json) : option string :=
  match v with
  | JStr s => Some s
  | _ => None
  end.

Definition before_request : M unit :=
  fun w => (Ok tt, {| database := database w; clock := clock w; g_db_session := true |}).

(** [quote_schema.dump(quote).data]; the nested author is read from the
    store. *)
Definition quote_schema_dump (quote : option Quote.obj) : M (gmap string json) :=
  fun w => (QuoteSchema.dump_opt (database w) quote, w).

Definition get_authors : M response :=
  authors ← lift (q ← Author.query; call_query_method q "all" []);
  result ← lift (AuthorSchema.dump_many authors);
  mret (jsonify {[ "authors" := result ]}).

(** [author.quotes.all()] *)
Definition author_quotes (author : option Author.obj) : M (list Quote.obj) :=
  fun w =>
    match author with
    | None => (Raise AttributeError, w)
    | Some a =>
        (Ok (filter (fun q => Quote.author_id q = Author.id a)
                    (quote_table (database w))), w)
    end.

Definition get_author (pk : Z) : M response :=
  found ← try_except_IntegrityError
            (author ← lift (q ← Author.query;
                            call_query_method (R := option Author.obj) q "get"
                              [JNum pk]);
             mret (inl author))
            (mret (inr (with_status
                          (jsonify (message "Author could not be found.")) 400)));
  match found with
  | inr early => mret early
  | inl author =>
      author_result ← lift (AuthorSchema.dump_opt author);
      quotes ← author_quotes author;
      let quotes_result := QuoteSchema.dump_many_only quotes in
      mret (jsonify (<["author" := JObj author_result]>
                     (<["quotes" := quotes_result]> ∅)))
  end.

Definition get_quotes : M response :=
  quotes ← session_query_all_quotes;
  let result := QuoteSchema.dump_many_only quotes in
  mret (jsonify {[ "quotes" := result ]}).

Definition get_quote (pk : Z) : M response :=
  found ← try_except_IntegrityError
            (quote ← lift (q ← Quote.query;
                           call_query_method (R := option Quote.obj) q "get"
                             [JNum pk]);
             mret (inl quote))
            (mret (inr (with_status
                          (jsonify (message "Quote could not be found.")) 400)));
  match found with
  | inr early => mret early
  | inl quote =>
      result ← quote_schema_dump quote;
      mret (jsonify {[ "quote" := JObj result ]})
  end.

(** The view from the point where [request.get_json()] has returned:
    [json_data] is the value returned, [JNull] for [None].  When the body
    does not parse, [get_json] raises and the rest of the view does not
    run. *)
Definition new_quote (json_data : json) : M response :=
  if negb (truthy json_data) then
    mret (with_status (jsonify (message "No input data provided")) 400)
  else
    '(data, errors) ← lift (QuoteSchema.load json_data);
    if negb (bool_decide (errors = ∅)) then
      mret (with_status (jsonify errors) 422)
    else
      data_author ← lift (getitem data "author");
      first ← lift (getitem_json data_author "first");
      last ← lift (getitem_json data_author "last");
      existing ← lift (q ← Author.query;
                       call_query_method (R := option Author.obj) q "filter_by"
                         [first; last]);
      author ← match existing with
               | None =>
                   let author := Author.mk None (text_of first) (text_of last) in
                   _ ← call_session_method "db" "add" [AuthorObj author];
                   mret author
               | Some author => mret author
               end;
      content ← lift (getitem data "content");
      now ← utcnow;
      let quote := Quote.mk None (text_of content) None (Some author) (Some now) in
      _ ← call_session_method "db" "add" [QuoteObj quote];
      _ ← call_session_method "db" "commit" [];
      reloaded ← lift (q ← Quote.query;
                       call_query_method (R := option Quote.obj) q "get"
                         [int_or_null (Quote.id quote)]);
      result ← quote_schema_dump reloaded;
      mret (jsonify (<["message" := JStr "Created new quote."]>
                     (<["quote" := JObj result]> ∅))).

(** ** The application: [before_request], then the matching route *)

(** A request that the URL map has matched to a view function: [pk] is the
    integer that the [int] converter hands to the view, [json_data] is what
    [request.get_json()] returned.  A URL that matches no rule and a body
    that does not parse are answered by the framework and run no view. *)
Inductive request : Type :=
| GET_authors
| GET_author (pk : Z)
| GET_quotes
| GET_quote (pk : Z)
| POST_quotes (json_data : json).

Definition route (r : request) : M response :=
  match r with
  | GET_authors => get_authors
  | GET_author pk => get_author pk
  | GET_quotes => get_quotes
  | GET_quote pk => get_quote pk
  | POST_quotes json_data => new_quote json_data
  end.

(** [g] belongs to one request: nothing is bound on it when the request
    starts, and it is gone when the request ends. *)
Definition fresh_context (w : World) : World :=
  {| database := database w; clock := clock w; g_db_session := false |}.

Definition handle (r : request) : M response :=
  fun w =>
    let '(res, w') := (_ ← before_request; route r) (fresh_context w) in
    (res, fresh_context w').

(** ** The specification's reading, and names used in the statements *)

(** Cutting a string at its first space, as the specification words it. *)
Fixpoint split_first_space (s : string) : option (string * string) :=
  match s with
  | EmptyString => None
  | String c rest =>
      if Ascii.eqb c space then Some ("", rest)
      else match split_first_space rest with
           | Some (f, l) => Some (String c f, l)
           | None => None
           end
  end.

(** The nested object [{first, last}]. *)
Definition author_object (first last : string) : json :=
  JObj (<["first" := JStr first]> (<["last" := JStr last]> ∅)).

(** The value the specification gives to ["author"] after the pre-load
    step: the two halves of a non-empty string, the empty object when the
    key is absent; the specification says nothing in the other cases. *)
Definition author_after_preload (author : option json) : option json :=
  match author with
  | None => Some (JObj ∅)
  | Some (JStr s) =>
      if String.eqb s "" then None
      else match split_first_space s with
           | Some (f, l) => Some (author_object f l)
           | None => None
           end
  | Some _ => None
  end.

(** The author values on which the pre-load step completes. *)
Definition author_accepted (author_name : json) : bool :=
  negb (truthy author_name)
  || match author_name with
     | JStr s => Nat.eqb (count_spaces s) 1
     | _ => false
     end.

(** A 422 response carrying an error entry for [field]. *)
Definition is_422_with_error (field : string) (r : result response) : Prop :=
  ∃ errors : gmap string json,
    r = Ok {| status := 422; body := JObj errors |} ∧ is_Some (errors !! field).

(** The field loop of [QuoteSchema.load], after the hook. *)
Definition load_fields (d : gmap string json)
  : result (gmap string json * gmap string json) :=
  acc ← unmarshal_field "author" false
          (Nested_deserialize must_not_be_blank) d (∅, ∅);
  unmarshal_field "content" true (Str_deserialize must_not_be_blank) d acc.

(** A name token: not empty and without a space. *)
Definition is_token (s : string) : bool :=
  negb (String.eqb s "") && Nat.eqb (count_spaces s) 0.

(** The world a route sees: [before_request] has bound [g.db_session]. *)
Definition with_session (w : World) : World :=
  {| database := database w; clock := clock w; g_db_session := true |}.

(** A freshly created store, as after [drop_all] and [create_all]. *)
Definition empty_world : World :=
  {| database := {| author_table := []; quote_table := [] |};
     clock := datetime.mk 1970 1 1 0 0 0 0;
     g_db_session := false |}.

(** The body [{"content": "Hi", "author": "Tim Peters"}]. *)
Definition tim_peters_body : gmap string json :=
  <["content" := JStr "Hi"]> {[ "author" := JStr "Tim Peters" ]}.

(** The last name, a comma and a space, the first name. *)
Definition formatted (author : Author.obj) : string :=
  py_str (Author.last author) +:+ ", " +:+ py_str (Author.first author).

(** The fields of a dumped author. *)
Definition author_fields (author : Author.obj) : gmap string json :=
  <["id" := int_or_null (Author.id author)]>
  (<["first" := str_or_null (Author.first author)]>
  (<["last" := str_or_null (Author.last author)]>
  (<["formatted_name" := JStr (formatted author)]> ∅))).

(** The ["formatted_name"] entry of a dumped value, when it is an object. *)
Definition formatted_name_of (v : json) : option json :=
  match v with
  | JObj m => m !! "formatted_name"
  | _ => None
  end.

(** Whether the store holds an author row with exactly this first and last
    name. *)
Definition has_author (f l : string) (db : Db) : bool :=
  existsb (λ a, bool_decide (Author.first a = Some f ∧ Author.last a = Some l))
          (author_table db).

(** ** Names used in the further properties *)

Definition is_object (v : json) : bool :=
  match v with
  | JObj _ => true
  | _ => false
  end.

Definition is_string (v : json) : bool :=
  match v with
  | JStr _ => true
  | _ => false
  end.

(** A content value that passes its field: a string that is not empty. *)
Definition content_ok (content : option json) : bool :=
  match content with
  | Some (JStr c) => negb (String.eqb c "")
  | _ => false
  end.

Definition has_key (m : gmap string json) (key : string) : bool :=
  bool_decide (is_Some (m !! key)).

(** One element of the restricted list view: [id] and [content] only. *)
Definition quote_entry (q : Quote.obj) : gmap string json :=
  <["id" := int_or_null (Quote.id q)]>
  (<["content" := str_or_null (Quote.content q)]> ∅).

Definition no_input_response : response :=
  {| status := 400; body := JObj (message "No input data provided") |}.

Definition author_blank_error : gmap string json :=
  {[ "author" := messages "Data not provided." ]}.

(** Key sets of maps built from the two fields. *)
Ltac solve_field_keys :=
  unfold author_blank_error;
  rewrite ?dom_insert_L, ?dom_singleton_L, ?dom_empty_L; set_solver.

(** ** Strings: splitting and counting *)

Section split_lemmas.
Implicit Types s f l : string.

Lemma split_space_length s : List.length (split_space s) = S (count_spaces s).
Proof.
  induction s as [|c rest IH]; simpl; [done|].
  destruct (Ascii.eqb c space); simpl; [by rewrite IH|].
  destruct (split_space rest) as [|w ws]; simpl in *; [discriminate IH|done].
Qed.

Lemma split_space_no_space s : count_spaces s = 0 → split_space s = [s].
Proof.
  induction s as [|c rest IH]; simpl; [done|].
  destruct (Ascii.eqb c space); [discriminate|].
  intros H. by rewrite (IH H).
Qed.

Lemma split_space_join f l :
  count_spaces f = 0 → split_space (f +:+ " " +:+ l) = f :: split_space l.
Proof.
  induction f as [|c rest IH]; simpl; [done|].
  destruct (Ascii.eqb c space); [discriminate|].
  intros H. by rewrite (IH H).
Qed.

Lemma unpack2_length {A} (xs : list A) :
  List.length xs ≠ 2 → unpack2 xs = Raise ValueError.
Proof. destruct xs as [|a [|b [|c xs]]]; simpl; intros; done. Qed.

Lemma unpack2_split_space_raise s :
  count_spaces s ≠ 1 → unpack2 (split_space s) = Raise ValueError.
Proof.
  intros H. apply unpack2_length. rewrite split_space_length. lia.
Qed.

Lemma split_first_space_one s f l :
  count_spaces s = 1 → split_first_space s = Some (f, l) →
  split_space s = [f; l].
Proof.
  revert f. induction s as [|c rest IH]; simpl; intros f; [done|].
  destruct (Ascii.eqb c space).
  - intros [= H0] [= <- <-]. by rewrite (split_space_no_space _ H0).
  - intros H1. destruct (split_first_space rest) as [[f' l']|]; [|done].
    intros [= <- <-]. by rewrite (IH f' H1 eq_refl).
Qed.

Lemma split_first_space_exists s :
  count_spaces s = 1 → ∃ f l, split_first_space s = Some (f, l).
Proof.
  induction s as [|c rest IH]; simpl; [done|].
  destruct (Ascii.eqb c space); [by eauto|].
  intros H. destruct (IH H) as (f & l & ->). eauto.
Qed.

Lemma count_spaces_token_pair f l :
  count_spaces f = 0 → count_spaces l = 0 →
  count_spaces (f +:+ " " +:+ l) = 1.
Proof.
  intros Hf Hl. induction f as [|c rest IH]; simpl in *.
  - change (S (count_spaces l) = 1). by rewrite Hl.
  - destruct (Ascii.eqb c space); [discriminate|]. by apply IH.
Qed.
End split_lemmas.

Lemma truthy_JStr s : truthy (JStr s) = true ↔ s ≠ "".
Proof.
  simpl. destruct (String.eqb_spec s ""); simpl; split; intros; done.
Qed.

Lemma truthy_JObj d key v : d !! key = Some v → truthy (JObj d) = true.
Proof.
  intros H. simpl. rewrite bool_decide_eq_false_2; [done|].
  intros ->. by rewrite lookup_empty in H.
Qed.

Lemma append_nil_r (s : string) : s +:+ "" = s.
Proof.
  induction s as [|c rest IH]; [done|].
  change (String c (rest +:+ "") = String c rest). by rewrite IH.
Qed.

Lemma format_name_eq (author : Author.obj) :
  AuthorSchema.format_name author =
    Ok (py_str (Author.last author) +:+ ", " +:+ py_str (Author.first author)).
Proof.
  unfold AuthorSchema.format_name. simpl. by rewrite append_nil_r.
Qed.

(** ** The monads *)

Lemma bind_Ok {A B} (a : A) (k : A → result B) : (Ok a ≫= k) = k a.
Proof. reflexivity. Qed.

Lemma bind_Raise {A B} (e : exn) (k : A → result B) :
  (Raise e ≫= k) = Raise e.
Proof. reflexivity. Qed.

Lemma bind_lift {A B} (r : result A) (k : A → M B) (w : World) :
  (lift r ≫= k) w = match r with Ok a => k a w | Raise e => (Raise e, w) end.
Proof. by destruct r. Qed.

Lemma bind_mret {A B} (a : A) (k : A → M B) (w : World) :
  (mret a ≫= k) w = k a w.
Proof. reflexivity. Qed.

(** ** Attribute lookup on the models *)

Lemma Author_query_raises : Author.query = Raise AttributeError.
Proof. reflexivity. Qed.

Lemma Quote_query_raises : Quote.query = Raise AttributeError.
Proof. reflexivity. Qed.

Lemma db_session_raises (method : string) (args : list orm_obj) (w : World) :
  call_session_method "db" method args w = (Raise NameError, w).
Proof. reflexivity. Qed.

(** ** The pre-load hook *)

Lemma process_author_falsy (d : gmap string json) :
  truthy (dict_get d "author") = false →
  QuoteSchema.process_author (JObj d) = Ok (JObj (<["author" := JObj ∅]> d)).
Proof. intros H. unfold QuoteSchema.process_author. by rewrite H. Qed.

Lemma process_author_absent (d : gmap string json) :
  d !! "author" = None →
  QuoteSchema.process_author (JObj d) = Ok (JObj (<["author" := JObj ∅]> d)).
Proof.
  intros H. apply process_author_falsy. unfold dict_get. by rewrite H.
Qed.

Lemma count_spaces_nonempty (s : string) : count_spaces s = 1 → s ≠ "".
Proof. by intros H ->. Qed.

Lemma process_author_split (d : gmap string json) (s f l : string) :
  d !! "author" = Some (JStr s) → s ≠ "" → split_space s = [f; l] →
  QuoteSchema.process_author (JObj d)
  = Ok (JObj (<["author" := author_object f l]> d)).
Proof.
  intros Hd Hs Hsplit. unfold QuoteSchema.process_author, dict_get.
  rewrite Hd. simpl default.
  rewrite (proj2 (truthy_JStr s) Hs), Hsplit. reflexivity.
Qed.

Lemma process_author_raises (d : gmap string json) (s : string) :
  d !! "author" = Some (JStr s) → s ≠ "" → count_spaces s ≠ 1 →
  QuoteSchema.process_author (JObj d) = Raise ValueError.
Proof.
  intros Hd Hs Hn. unfold QuoteSchema.process_author, dict_get.
  rewrite Hd. simpl default.
  rewrite (proj2 (truthy_JStr s) Hs), (unpack2_split_space_raise _ Hn).
  reflexivity.
Qed.

(** On an accepted author the hook leaves either the empty object or the
    two halves of the name under ["author"]. *)
Lemma process_author_accepted (d : gmap string json) :
  author_accepted (dict_get d "author") = true →
  ∃ a : json,
    QuoteSchema.process_author (JObj d) = Ok (JObj (<["author" := a]> d))
    ∧ (a = JObj ∅ ∨ ∃ f l, a = author_object f l).
Proof.
  unfold author_accepted. intros H.
  destruct (truthy (dict_get d "author")) eqn:Ht.
  - simpl in H. unfold dict_get in *.
    destruct (d !! "author") as [v|] eqn:Hd; [|done].
    destruct v as [| | |s| |]; try done. simpl in H, Ht.
    apply Nat.eqb_eq in H.
    destruct (split_first_space_exists s H) as (f & l & Hfl).
    exists (author_object f l). split; [|by eauto].
    apply (process_author_split d s f l Hd (count_spaces_nonempty s H)).
    by apply split_first_space_one.
  - exists (JObj ∅). split; [|by left]. by apply process_author_falsy.
Qed.

(** ** Field-level loading *)

Lemma load_after_hook (d d' : gmap string json) :
  QuoteSchema.process_author (JObj d) = Ok (JObj d') →
  QuoteSchema.load (JObj d) = load_fields d'.
Proof. intros H. unfold QuoteSchema.load. by rewrite H. Qed.

Lemma load_hook_raises (j : json) (e : exn) :
  QuoteSchema.process_author j = Raise e → QuoteSchema.load j = Raise e.
Proof. intros H. unfold QuoteSchema.load. by rewrite H. Qed.

Lemma unmarshal_author_empty (d : gmap string json) :
  d !! "author" = Some (JObj ∅) →
  unmarshal_field "author" false (Nested_deserialize must_not_be_blank) d (∅, ∅)
  = Ok (∅, {[ "author" := messages "Data not provided." ]}).
Proof. intros H. unfold unmarshal_field. rewrite H. reflexivity. Qed.

Lemma unmarshal_author_pair (d : gmap string json) (f l : string) :
  d !! "author" = Some (author_object f l) →
  unmarshal_field "author" false (Nested_deserialize must_not_be_blank) d (∅, ∅)
  = Ok ({[ "author" := author_object f l ]}, ∅).
Proof. intros H. unfold unmarshal_field. rewrite H. reflexivity. Qed.

Lemma unmarshal_content_text (d : gmap string json) (c : string) acc :
  d !! "content" = Some (JStr c) → c ≠ "" →
  unmarshal_field "content" true (Str_deserialize must_not_be_blank) d acc
  = Ok (<["content" := JStr c]> acc.1, acc.2).
Proof.
  intros H Hc. destruct acc as [data errors]. unfold unmarshal_field.
  rewrite H. unfold Str_deserialize, must_not_be_blank.
  by rewrite (proj2 (truthy_JStr c) Hc).
Qed.

Lemma unmarshal_content_blank (d : gmap string json) acc :
  d !! "content" = Some (JStr "") →
  unmarshal_field "content" true (Str_deserialize must_not_be_blank) d acc
  = Ok (acc.1, <["content" := messages "Data not provided."]> acc.2).
Proof.
  intros H. destruct acc as [data errors]. unfold unmarshal_field.
  by rewrite H.
Qed.

(** Whatever ["content"] holds, loading it completes and leaves the errors
    of the other fields in place. *)
Lemma unmarshal_content_keeps (d : gmap string json) acc (other : string) :
  other ≠ "content" →
  ∃ data errors,
    unmarshal_field "content" true (Str_deserialize must_not_be_blank) d acc
    = Ok (data, errors)
    ∧ errors !! other = acc.2 !! other.
Proof.
  intros Hne. destruct acc as [data errors]. unfold unmarshal_field.
  destruct (d !! "content") as [v|].
  - destruct v as [| | |s| |]; simpl;
      try (eexists _, _; split; [reflexivity|by rewrite lookup_insert_ne]).
    unfold must_not_be_blank. destruct (truthy (JStr s)); simpl.
    + eexists _, _; split; [reflexivity|done].
    + eexists _, _; split; [reflexivity|by rewrite lookup_insert_ne].
  - simpl. eexists _, _; split; [reflexivity|by rewrite lookup_insert_ne].
Qed.

(** ** The POST handler, case by case *)

Lemma new_quote_falsy (j : json) (w : World) :
  truthy j = false →
  new_quote j w
  = (Ok {| status := 400; body := JObj (message "No input data provided") |}, w).
Proof. intros H. unfold new_quote. by rewrite H. Qed.

Lemma new_quote_load_raises (j : json) (e : exn) (w : World) :
  truthy j = true → QuoteSchema.load j = Raise e →
  new_quote j w = (Raise e, w).
Proof.
  intros Ht Hl. unfold new_quote. rewrite Ht. cbn [negb].
  rewrite bind_lift, Hl. reflexivity.
Qed.

Lemma new_quote_errors (j : json) (data errors : gmap string json) (w : World) :
  truthy j = true → QuoteSchema.load j = Ok (data, errors) → errors ≠ ∅ →
  new_quote j w = (Ok {| status := 422; body := JObj errors |}, w).
Proof.
  intros Ht Hl He. unfold new_quote. rewrite Ht. cbn [negb].
  rewrite bind_lift, Hl. cbv beta iota.
  by rewrite bool_decide_eq_false_2.
Qed.

(** Once the body has passed validation the handler reaches the lookup of
    [Author.query], which raises; the store is as it was. *)
Lemma new_quote_loaded (j : json) (data : gmap string json) (f l : string)
    (w : World) :
  truthy j = true → QuoteSchema.load j = Ok (data, ∅) →
  data !! "author" = Some (author_object f l) →
  new_quote j w = (Raise AttributeError, w).
Proof.
  intros Ht Hl Ha. unfold new_quote. rewrite Ht. cbn [negb].
  rewrite bind_lift, Hl. cbv beta iota.
  rewrite bool_decide_eq_true_2 by done. cbn [negb].
  rewrite bind_lift. unfold getitem at 1. rewrite Ha.
  reflexivity.
Qed.

(** No request to the POST route changes the store, the clock or [g]. *)
Lemma new_quote_keeps_world (j : json) (w : World) : (new_quote j w).2 = w.
Proof.
  unfold new_quote. destruct (truthy j); cbn [negb]; [|done].
  rewrite bind_lift.
  destruct (QuoteSchema.load j) as [[data errors]|e]; [|done].
  destruct (bool_decide (errors = ∅)); cbn [negb]; [|done].
  rewrite bind_lift. destruct (getitem data "author") as [a|e]; [|done].
  rewrite bind_lift. destruct (getitem_json a "first") as [f|e]; [|done].
  rewrite bind_lift. destruct (getitem_json a "last") as [l|e]; [|done].
  by rewrite bind_lift.
Qed.

(** ** Valid bodies *)

Lemma is_token_no_space (s : string) : is_token s = true → count_spaces s = 0.
Proof.
  unfold is_token. intros [_ H]%andb_prop. by apply Nat.eqb_eq.
Qed.

Lemma token_pair_split (f l : string) :
  is_token f = true → is_token l = true →
  split_space (f +:+ " " +:+ l) = [f; l] ∧ f +:+ " " +:+ l ≠ "".
Proof.
  intros Hf%is_token_no_space Hl%is_token_no_space. split.
  - by rewrite split_space_join, split_space_no_space.
  - apply count_spaces_nonempty. by apply count_spaces_token_pair.
Qed.

(** Loading a valid body gives back its content and the two halves of the
    author's name, and no error. *)
Lemma load_valid (d : gmap string json) (c f l : string) :
  d !! "content" = Some (JStr c) → truthy (JStr c) = true →
  d !! "author" = Some (JStr (f +:+ " " +:+ l)) →
  is_token f = true → is_token l = true →
  QuoteSchema.load (JObj d)
  = Ok (<["content" := JStr c]> {[ "author" := author_object f l ]}, ∅).
Proof.
  intros Hc Hblank Ha Hf Hl.
  destruct (token_pair_split f l Hf Hl) as [Hsplit Hne].
  rewrite (load_after_hook d _ (process_author_split d _ f l Ha Hne Hsplit)).
  unfold load_fields.
  rewrite (unmarshal_author_pair _ f l) by apply lookup_insert_eq.
  rewrite bind_Ok. apply unmarshal_content_text.
  - by rewrite lookup_insert_ne.
  - by apply truthy_JStr.
Qed.

Lemma new_quote_valid (d : gmap string json) (c f l : string) (w : World) :
  d !! "content" = Some (JStr c) → truthy (JStr c) = true →
  d !! "author" = Some (JStr (f +:+ " " +:+ l)) →
  is_token f = true → is_token l = true →
  new_quote (JObj d) w = (Raise AttributeError, w).
Proof.
  intros Hc Hblank Ha Hf Hl.
  eapply new_quote_loaded with (f := f) (l := l).
  - by eapply truthy_JObj.
  - by apply (load_valid d c f l).
  - rewrite lookup_insert_ne by done. apply lookup_singleton_eq.
Qed.

Lemma handle_route (r : request) (w : World) :
  (handle r w).1 = (route r (with_session w)).1.
Proof.
  unfold handle.
  change ((_ ← before_request; route r) (fresh_context w))
    with (route r (with_session w)).
  by destruct (route r (with_session w)).
Qed.

Lemma handle_database (r : request) (w : World) :
  database (handle r w).2 = database (route r (with_session w)).2.
Proof.
  unfold handle.
  change ((_ ← before_request; route r) (fresh_context w))
    with (route r (with_session w)).
  by destruct (route r (with_session w)).
Qed.

(** ** The GET handlers *)

Lemma get_authors_raises (w : World) : get_authors w = (Raise AttributeError, w).
Proof. reflexivity. Qed.

Lemma get_author_raises (pk : Z) (w : World) :
  get_author pk w = (Raise AttributeError, w).
Proof. reflexivity. Qed.

Lemma get_quote_raises (pk : Z) (w : World) :
  get_quote pk w = (Raise AttributeError, w).
Proof. reflexivity. Qed.

(** The sibling route that goes through [g.db_session] answers. *)
Lemma get_quotes_answers (w : World) :
  ∃ resp, (handle GET_quotes w).1 = Ok resp ∧ status resp = 200%Z.
Proof. eexists. split; reflexivity. Qed.

(** ** Dumping dates *)

Lemma isoformat_with_fraction :
  datetime.isoformat (datetime.mk 2014 12 22 3 12 58 19077)
  = "2014-12-22T03:12:58.019077+00:00".
Proof. reflexivity. Qed.

Lemma isoformat_whole_second :
  datetime.isoformat (datetime.mk 1970 1 1 0 0 0 0)
  = "1970-01-01T00:00:00+00:00".
Proof. reflexivity. Qed.

(** ** Dumping authors *)

Lemma dump_author_fields (author : Author.obj) :
  AuthorSchema.dump author = Ok (author_fields author).
Proof. unfold AuthorSchema.dump. by rewrite format_name_eq. Qed.

Lemma author_fields_formatted_name (author : Author.obj) :
  author_fields author !! "formatted_name" = Some (JStr (formatted author)).
Proof.
  unfold author_fields.
  rewrite !lookup_insert_ne by done. apply lookup_insert_eq.
Qed.

Lemma dump_many_author_fields (authors : list Author.obj) :
  AuthorSchema.dump_many authors
  = Ok (JArr ((λ a, JObj (author_fields a)) <$> authors)).
Proof.
  unfold AuthorSchema.dump_many.
  assert (mapM AuthorSchema.dump authors = Ok (author_fields <$> authors)) as ->.
  { induction authors as [|a rest IH]; [done|].
    change (mapM AuthorSchema.dump (a :: rest))
      with (y ← AuthorSchema.dump a;
            k ← mapM AuthorSchema.dump rest; mret (y :: k)).
    by rewrite dump_author_fields, bind_Ok, IH. }
  rewrite bind_Ok. by rewrite <- list_fmap_compose.
Qed.

(** * The claims *)

(** C1 (defect of the code): a valid POST, with non-blank content [c] and
    the author name [f l] of two tokens, passes validation with exactly
    that content and those two halves, but the request is not answered with
    the 200 "Created new quote." response: the handler goes on to look up
    [Author.query], and the request ends in [AttributeError]. *)
Theorem valid_post_raises_AttributeError
    (d : gmap string json) (c f l : string) (w : World) :
  d !! "content" = Some (JStr c) → truthy (JStr c) = true →
  d !! "author" = Some (JStr (f +:+ " " +:+ l)) →
  is_token f = true → is_token l = true →
  QuoteSchema.load (JObj d)
  = Ok (<["content" := JStr c]> {[ "author" := author_object f l ]}, ∅)
  ∧ (handle (POST_quotes (JObj d)) w).1 = Raise AttributeError.
Proof.
  intros Hc Hblank Ha Hf Hl. split.
  - by apply load_valid.
  - rewrite handle_route. simpl route.
    by rewrite (new_quote_valid d c f l).
Qed.

Lemma valid_post_raises_AttributeError_witness :
  QuoteSchema.load (JObj tim_peters_body)
  = Ok (<["content" := JStr "Hi"]> {[ "author" := author_object "Tim" "Peters" ]}, ∅)
  ∧ (handle (POST_quotes (JObj tim_peters_body)) empty_world).1
    = Raise AttributeError.
Proof.
  apply (valid_post_raises_AttributeError tim_peters_body "Hi" "Tim" "Peters"
           empty_world); reflexivity.
Defined.

(** C2 (defect of the code): on the empty store, where no id identifies a
    row, GET /authors/7 and GET /quotes/7 do not answer 400 with a message:
    both end in [AttributeError], which the handlers' [except IntegrityError]
    does not catch. *)
Theorem get_missing_id_raises :
  (handle (GET_author 7) empty_world).1 = Raise AttributeError
  ∧ (handle (GET_quote 7) empty_world).1 = Raise AttributeError.
Proof. split; reflexivity. Qed.

(** C3 (as amended): when the ["author"] entry is absent, or is a non-empty
    string with exactly one space, the pre-load step replaces it with what
    the specification describes: the empty object, or the object made of
    the two halves of the string around its first space.  The fields are
    then validated on the replaced value; the empty object left for an
    absent author fails the blank check: the validator raises "Data not
    provided." on it, and loading reports that under ["author"]. *)
Theorem process_author_one_space_or_absent
    (d : gmap string json) (o : json) :
  author_after_preload (d !! "author") = Some o →
  author_accepted (dict_get d "author") = true →
  QuoteSchema.process_author (JObj d) = Ok (JObj (<["author" := o]> d))
  ∧ QuoteSchema.load (JObj d) = load_fields (<["author" := o]> d)
  ∧ (d !! "author" = None →
     must_not_be_blank o
     = Raise (ValidationError (JArr [JStr "Data not provided."]))
     ∧ ∃ data errors,
         QuoteSchema.load (JObj d) = Ok (data, errors)
         ∧ errors !! "author" = Some (JArr [JStr "Data not provided."])).
Proof.
  intros Hspec Hacc.
  assert (QuoteSchema.process_author (JObj d) = Ok (JObj (<["author" := o]> d)))
    as Hhook.
  { revert Hspec Hacc. unfold author_after_preload, author_accepted, dict_get.
    destruct (d !! "author") as [v|] eqn:Hd.
    - destruct v as [| | |s| |]; try done. simpl default.
      destruct (String.eqb_spec s "") as [->|Hs]; [done|].
      destruct (split_first_space s) as [[f l]|] eqn:Hfl; [|done].
      intros [= <-]. rewrite (proj2 (truthy_JStr s) Hs). simpl.
      intros Hone%Nat.eqb_eq.
      apply (process_author_split d s f l Hd Hs).
      by apply split_first_space_one.
    - intros [= <-] _. by apply process_author_absent. }
  split; [exact Hhook|]. split; [by apply load_after_hook|].
  intros Hnone. unfold author_after_preload in Hspec.
  rewrite Hnone in Hspec. injection Hspec as <-.
  split; [reflexivity|].
  rewrite (load_after_hook d _ Hhook). unfold load_fields.
  rewrite unmarshal_author_empty by apply lookup_insert_eq.
  rewrite bind_Ok.
  destruct (unmarshal_content_keeps (<["author" := JObj ∅]> d)
              (∅, {[ "author" := messages "Data not provided." ]}) "author")
    as (data & errors & Hcontent & Hkeep); [done|].
  exists data, errors. split; [exact Hcontent|].
  rewrite Hkeep. apply lookup_singleton_eq.
Qed.

Lemma process_author_one_space_or_absent_witness :
  (QuoteSchema.process_author (JObj tim_peters_body)
   = Ok (JObj (<["author" := author_object "Tim" "Peters"]> tim_peters_body))
   ∧ QuoteSchema.load (JObj tim_peters_body)
     = load_fields (<["author" := author_object "Tim" "Peters"]> tim_peters_body))
  ∧ (QuoteSchema.process_author (JObj {[ "content" := JStr "Hi" ]})
     = Ok (JObj (<["author" := JObj ∅]> {[ "content" := JStr "Hi" ]}))
     ∧ must_not_be_blank (JObj ∅)
       = Raise (ValidationError (JArr [JStr "Data not provided."]))
     ∧ ∃ data errors,
         QuoteSchema.load (JObj {[ "content" := JStr "Hi" ]}) = Ok (data, errors)
         ∧ errors !! "author" = Some (JArr [JStr "Data not provided."])).
Proof.
  split.
  - destruct (process_author_one_space_or_absent tim_peters_body
                (author_object "Tim" "Peters"))
      as (Hhook & Hload & _); [reflexivity|reflexivity|].
    exact (conj Hhook Hload).
  - destruct (process_author_one_space_or_absent {[ "content" := JStr "Hi" ]}
                (JObj ∅))
      as (Hhook & _ & Hblank); [reflexivity|reflexivity|].
    split; [exact Hhook|]. apply Hblank. reflexivity.
Defined.

(** C3 (counterexample): for the author string "Tim Van Peters" the
    specification's split on the first space gives "Tim" and "Van Peters",
    but the pre-load step does not produce that object: it raises
    [ValueError]. *)
Lemma process_author_three_tokens :
  author_after_preload
    (({[ "author" := JStr "Tim Van Peters" ]} : gmap string json) !! "author")
  = Some (author_object "Tim" "Van Peters")
  ∧ QuoteSchema.process_author (JObj {[ "author" := JStr "Tim Van Peters" ]})
    ≠ Ok (JObj (<["author" := author_object "Tim" "Van Peters"]>
                 {[ "author" := JStr "Tim Van Peters" ]}))
  ∧ QuoteSchema.process_author (JObj {[ "author" := JStr "Tim Van Peters" ]})
    = Raise ValueError.
Proof.
  assert (QuoteSchema.process_author (JObj {[ "author" := JStr "Tim Van Peters" ]})
          = Raise ValueError) as E by reflexivity.
  split; [reflexivity|]. split; [|exact E]. by rewrite E.
Qed.

(** C4 (defect of the code): a valid POST whose author is in no row of the
    store leaves the author table as it was, where one new row is due: the
    handler raises before anything is added. *)
Theorem unseen_author_post_adds_no_row
    (d : gmap string json) (c f l : string) (w : World) :
  d !! "content" = Some (JStr c) → truthy (JStr c) = true →
  d !! "author" = Some (JStr (f +:+ " " +:+ l)) →
  is_token f = true → is_token l = true →
  has_author f l (database w) = false →
  (new_quote (JObj d) w).1 = Raise AttributeError
  ∧ author_table (database (new_quote (JObj d) w).2) = author_table (database w)
  ∧ has_author f l (database (new_quote (JObj d) w).2) = false.
Proof.
  intros Hc Hblank Ha Hf Hl Hunseen.
  by rewrite (new_quote_valid d c f l).
Qed.

Lemma unseen_author_post_adds_no_row_witness :
  (new_quote (JObj tim_peters_body) empty_world).1 = Raise AttributeError
  ∧ author_table (database (new_quote (JObj tim_peters_body) empty_world).2)
  = author_table (database empty_world)
  ∧ has_author "Tim" "Peters"
      (database (new_quote (JObj tim_peters_body) empty_world).2) = false.
Proof.
  apply (unseen_author_post_adds_no_row tim_peters_body "Hi" "Tim" "Peters"
           empty_world); reflexivity.
Defined.

(** C5 (as amended): a POST whose body has the empty string as content, and
    whose author the pre-load step accepts (absent, empty, or a string with
    exactly one space), is answered 422 with an error map that has an entry
    for ["content"]. *)
Theorem blank_content_is_422
    (d : gmap string json) (w : World) :
  d !! "content" = Some (JStr "") →
  author_accepted (dict_get d "author") = true →
  is_422_with_error "content" (new_quote (JObj d) w).1.
Proof.
  intros Hc Hacc.
  destruct (process_author_accepted d Hacc) as (a & Hhook & Ha).
  assert (∃ acc, unmarshal_field "author" false
                   (Nested_deserialize must_not_be_blank)
                   (<["author" := a]> d) (∅, ∅) = Ok acc) as [acc Hauthor].
  { destruct Ha as [->|(f & l & ->)]; eexists.
    - apply unmarshal_author_empty, lookup_insert_eq.
    - apply unmarshal_author_pair, lookup_insert_eq. }
  assert (QuoteSchema.load (JObj d)
          = Ok (acc.1, <["content" := messages "Data not provided."]> acc.2))
    as Hload.
  { rewrite (load_after_hook d _ Hhook). unfold load_fields.
    rewrite Hauthor, bind_Ok. apply unmarshal_content_blank.
    by rewrite lookup_insert_ne. }
  eexists. split.
  - erewrite new_quote_errors; [reflexivity| |exact Hload|].
    + by eapply truthy_JObj.
    + apply insert_non_empty.
  - rewrite lookup_insert_eq. by eexists.
Qed.

Lemma blank_content_is_422_witness :
  is_422_with_error "content"
    (new_quote (JObj (<["content" := JStr ""]> tim_peters_body)) empty_world).1.
Proof.
  apply (blank_content_is_422 (<["content" := JStr ""]> tim_peters_body)
           empty_world); reflexivity.
Defined.

(** C5 (counterexample): the body [{"content": "", "author": "Tim"}] has
    blank content, yet the request is not answered 422: the pre-load step
    raises [ValueError] before any field is validated. *)
Lemma blank_content_one_token_author :
  (<["content" := JStr ""]> {[ "author" := JStr "Tim" ]} : gmap string json)
    !! "content" = Some (JStr "")
  ∧ (new_quote (JObj (<["content" := JStr ""]> {[ "author" := JStr "Tim" ]}))
       empty_world).1 = Raise ValueError
  ∧ ¬ is_422_with_error "content"
        (new_quote (JObj (<["content" := JStr ""]> {[ "author" := JStr "Tim" ]}))
           empty_world).1.
Proof.
  assert ((new_quote (JObj (<["content" := JStr ""]> {[ "author" := JStr "Tim" ]}))
             empty_world).1 = Raise ValueError) as E by reflexivity.
  split; [reflexivity|]. split; [exact E|].
  rewrite E. by intros (errors & H & _).
Qed.

(** C6 (as amended): a POST whose body is a non-empty object without an
    ["author"] key is answered 422 with an error map that has an entry for
    ["author"]. *)
Theorem missing_author_is_422
    (d : gmap string json) (w : World) :
  truthy (JObj d) = true →
  d !! "author" = None →
  is_422_with_error "author" (new_quote (JObj d) w).1.
Proof.
  intros Ht Hnone.
  pose proof (process_author_absent d Hnone) as Hhook.
  destruct (unmarshal_content_keeps (<["author" := JObj ∅]> d)
              (∅, {[ "author" := messages "Data not provided." ]}) "author")
    as (data & errors & Hcontent & Hkeep); [done|].
  assert (QuoteSchema.load (JObj d) = Ok (data, errors)) as Hload.
  { rewrite (load_after_hook d _ Hhook). unfold load_fields.
    rewrite unmarshal_author_empty by apply lookup_insert_eq.
    by rewrite bind_Ok. }
  simpl in Hkeep. rewrite lookup_singleton_eq in Hkeep.
  exists errors. split.
  - erewrite new_quote_errors; [reflexivity|exact Ht|exact Hload|].
    intros ->. by rewrite lookup_empty in Hkeep.
  - by eexists.
Qed.

Lemma missing_author_is_422_witness :
  is_422_with_error "author"
    (new_quote (JObj {[ "content" := JStr "Hi" ]}) empty_world).1.
Proof.
  apply (missing_author_is_422 {[ "content" := JStr "Hi" ]} empty_world);
    reflexivity.
Defined.

(** C6 (counterexample): the empty object is a JSON body without an
    ["author"] key, and it is answered 400 "No input data provided", not
    422. *)
Lemma empty_body_is_400 :
  (∅ : gmap string json) !! "author" = None
  ∧ (new_quote (JObj ∅) empty_world).1
    = Ok {| status := 400; body := JObj (message "No input data provided") |}
  ∧ ¬ is_422_with_error "author" (new_quote (JObj ∅) empty_world).1.
Proof.
  split; [reflexivity|]. split; [reflexivity|].
  intros (errors & H & _). vm_compute in H. discriminate H.
Qed.

(** C7 (defect of the code): a valid POST creates no quote at all, so there
    is nothing to reload and no timestamp: the request ends in
    [AttributeError], is answered by no response, and the quote table is as
    it was before the request. *)
Theorem valid_post_stores_no_quote
    (d : gmap string json) (c f l : string) (w : World) :
  d !! "content" = Some (JStr c) → truthy (JStr c) = true →
  d !! "author" = Some (JStr (f +:+ " " +:+ l)) →
  is_token f = true → is_token l = true →
  (∀ resp, (new_quote (JObj d) w).1 ≠ Ok resp)
  ∧ quote_table (database (new_quote (JObj d) w).2) = quote_table (database w).
Proof.
  intros Hc Hblank Ha Hf Hl.
  by rewrite (new_quote_valid d c f l).
Qed.

Lemma valid_post_stores_no_quote_witness :
  (∀ resp, (new_quote (JObj tim_peters_body) empty_world).1 ≠ Ok resp)
  ∧ quote_table (database (new_quote (JObj tim_peters_body) empty_world).2)
    = quote_table (database empty_world).
Proof.
  apply (valid_post_stores_no_quote tim_peters_body "Hi" "Tim" "Peters"
           empty_world); reflexivity.
Defined.

(** C8: every dumped author carries a ["formatted_name"] equal to the last
    name, a comma and a space, and the first name, a null name being shown
    as "None"; for an author with first name [f] and last name [l] the dump
    holds [f], [l] and "l, f".  This holds for a single dump, for each
    element of a list dump, and for the author nested in a dumped quote. *)
Theorem formatted_name_is_last_comma_first :
  let shown := λ x : option string,
                 match x with Some s => s | None => "None" end in
  (∀ author : Author.obj,
     ∃ m, AuthorSchema.dump author = Ok m
          ∧ m !! "formatted_name"
            = Some (JStr (shown (Author.last author) +:+ ", "
                          +:+ shown (Author.first author))))
  ∧ (∀ (i : option Z) (f l : string),
       ∃ m, AuthorSchema.dump (Author.mk i (Some f) (Some l)) = Ok m
            ∧ m !! "first" = Some (JStr f)
            ∧ m !! "last" = Some (JStr l)
            ∧ m !! "formatted_name" = Some (JStr (l +:+ ", " +:+ f)))
  ∧ (∃ m, AuthorSchema.dump (Author.mk (Some 1%Z) (Some "Tim") (Some "Peters"))
          = Ok m
          ∧ m !! "formatted_name" = Some (JStr "Peters, Tim"))
  ∧ (∀ authors : list Author.obj,
       ∃ dumped, AuthorSchema.dump_many authors = Ok (JArr dumped)
                 ∧ formatted_name_of <$> dumped
                   = (λ a, Some (JStr (shown (Author.last a) +:+ ", "
                                       +:+ shown (Author.first a))))
                     <$> authors)
  ∧ (∀ (db : Db) (quote : Quote.obj),
       ∃ m nested, QuoteSchema.dump db quote = Ok m
                   ∧ m !! "author" = Some nested
                   ∧ formatted_name_of nested
                     = a ← related_author db quote;
                       Some (JStr (shown (Author.last a) +:+ ", "
                                   +:+ shown (Author.first a)))).
Proof.
  intros shown.
  assert (∀ a, author_fields a !! "formatted_name"
               = Some (JStr (shown (Author.last a) +:+ ", "
                             +:+ shown (Author.first a)))) as Hname.
  { intros a. apply author_fields_formatted_name. }
  split_and!.
  - intros author. exists (author_fields author).
    split; [apply dump_author_fields|apply Hname].
  - intros i f l. exists (author_fields (Author.mk i (Some f) (Some l))).
    split_and!; [apply dump_author_fields| | |apply Hname].
    + unfold author_fields. rewrite lookup_insert_ne by done.
      apply lookup_insert_eq.
    + unfold author_fields. rewrite !lookup_insert_ne by done.
      apply lookup_insert_eq.
  - eexists. split; reflexivity.
  - intros authors. eexists. split; [apply dump_many_author_fields|].
    rewrite <- list_fmap_compose. apply list_fmap_ext.
    intros i a _. apply Hname.
  - intros db quote. unfold QuoteSchema.dump.
    destruct (related_author db quote) as [a|].
    + rewrite dump_author_fields. eexists _, _. split; [reflexivity|].
      split; [by rewrite lookup_insert_ne, lookup_insert_eq|].
      apply Hname.
    + eexists _, _. split; [reflexivity|].
      split; [by rewrite lookup_insert_ne, lookup_insert_eq|done].
Qed.

(** C9 (as amended): a POST whose ["author"] is a non-empty string that does
    not contain exactly one space ends in an uncaught [ValueError], raised
    by the two-variable unpacking of the pre-load step; no response, so no
    400 and no 422, is produced. *)
Theorem author_without_one_space_raises_ValueError
    (d : gmap string json) (s : string) (w : World) :
  d !! "author" = Some (JStr s) →
  truthy (JStr s) = true →
  count_spaces s ≠ 1 →
  QuoteSchema.process_author (JObj d) = Raise ValueError
  ∧ (new_quote (JObj d) w).1 = Raise ValueError.
Proof.
  intros Hd Hs%truthy_JStr Hn.
  pose proof (process_author_raises d s Hd Hs Hn) as Hhook.
  split; [exact Hhook|].
  erewrite new_quote_load_raises; [reflexivity| |].
  - by eapply truthy_JObj.
  - by apply load_hook_raises.
Qed.

Lemma author_without_one_space_raises_ValueError_witness :
  (QuoteSchema.process_author
     (JObj (<["author" := JStr "Tim Van Peters"]> tim_peters_body))
   = Raise ValueError
   ∧ (new_quote (JObj (<["author" := JStr "Tim Van Peters"]> tim_peters_body))
        empty_world).1 = Raise ValueError)
  ∧ (QuoteSchema.process_author
       (JObj (<["author" := JStr "TimVanPeters"]> tim_peters_body))
     = Raise ValueError
     ∧ (new_quote (JObj (<["author" := JStr "TimVanPeters"]> tim_peters_body))
          empty_world).1 = Raise ValueError).
Proof.
  split.
  - apply (author_without_one_space_raises_ValueError
             (<["author" := JStr "Tim Van Peters"]> tim_peters_body)
             "Tim Van Peters" empty_world); [reflexivity|reflexivity|].
    vm_compute. lia.
  - apply (author_without_one_space_raises_ValueError
             (<["author" := JStr "TimVanPeters"]> tim_peters_body)
             "TimVanPeters" empty_world); [reflexivity|reflexivity|].
    vm_compute. lia.
Defined.

(** C9 (counterexample): the empty string is an author string that does not
    contain exactly one space, and the request is answered 422, with an
    error entry for ["author"]; no [ValueError] is raised. *)
Lemma empty_author_string_is_422 :
  (<["author" := JStr ""]> tim_peters_body) !! "author" = Some (JStr "")
  ∧ count_spaces "" ≠ 1
  ∧ (new_quote (JObj (<["author" := JStr ""]> tim_peters_body)) empty_world).1
    = Ok {| status := 422;
            body := JObj {[ "author" := messages "Data not provided." ]} |}
  ∧ (new_quote (JObj (<["author" := JStr ""]> tim_peters_body)) empty_world).1
    ≠ Raise ValueError.
Proof.
  split; [reflexivity|]. split; [simpl; lia|].
  assert ((new_quote (JObj (<["author" := JStr ""]> tim_peters_body))
             empty_world).1
          = Ok {| status := 422;
                  body := JObj {[ "author" := messages "Data not provided." ]} |})
    as E by reflexivity.
  split; [exact E|]. by rewrite E.
Qed.

(** C10: [Author] and [Quote] have no [query] attribute, so every request
    to GET /authors, GET /authors/<id> and GET /quotes/<id> ends in
    [AttributeError], whatever the store holds, and leaves the store as it
    was. *)
Theorem query_routes_raise_AttributeError (w : World) (pk : Z) :
  Author.query = Raise AttributeError
  ∧ Quote.query = Raise AttributeError
  ∧ (handle GET_authors w).1 = Raise AttributeError
  ∧ (handle (GET_author pk) w).1 = Raise AttributeError
  ∧ (handle (GET_quote pk) w).1 = Raise AttributeError
  ∧ database (handle GET_authors w).2 = database w
  ∧ database (handle (GET_author pk) w).2 = database w
  ∧ database (handle (GET_quote pk) w).2 = database w.
Proof.
  rewrite !handle_route, !handle_database. simpl route.
  rewrite get_authors_raises, get_author_raises, get_quote_raises.
  repeat split.
Qed.

(** * Further properties *)

(** ** Splitting, once more *)

Lemma split_space_single (s l : string) :
  split_space s = [l] → s = l ∧ count_spaces s = 0.
Proof.
  intros H. assert (count_spaces s = 0) as H0.
  { pose proof (split_space_length s) as Hlen. rewrite H in Hlen.
    simpl in Hlen. lia. }
  split; [|done]. rewrite (split_space_no_space s H0) in H. congruence.
Qed.

Lemma split_space_pair (s f l : string) :
  split_space s = [f; l] →
  f +:+ " " +:+ l = s ∧ count_spaces f = 0 ∧ count_spaces l = 0.
Proof.
  revert f. induction s as [|c rest IH]; intros f; simpl; [done|].
  destruct (Ascii.eqb c space) eqn:Hc.
  - apply Ascii.eqb_eq in Hc as ->. intros [= <- H].
    apply split_space_single in H as [-> H0]. done.
  - destruct (split_space rest) as [|w ws]; [done|].
    intros [= <- ->]. destruct (IH w eq_refl) as (Hj & Hw & Hl).
    split; [|split; [|done]].
    + change (String c (w +:+ " " +:+ l) = String c rest). by rewrite Hj.
    + simpl. by rewrite Hc.
Qed.

Lemma split_space_one (s : string) :
  count_spaces s = 1 → ∃ f l, split_space s = [f; l].
Proof.
  intros H. destruct (split_first_space_exists s H) as (f & l & Hfl).
  exists f, l. by apply split_first_space_one.
Qed.

(** ** The hook, inverted *)

Lemma process_author_nonstring (d : gmap string json) (v : json) :
  d !! "author" = Some v → truthy v = true → is_string v = false →
  QuoteSchema.process_author (JObj d) = Raise AttributeError.
Proof.
  intros Hd Ht Hs. unfold QuoteSchema.process_author, dict_get.
  rewrite Hd. simpl default. rewrite Ht. by destruct v.
Qed.

(** The four ways the hook can go on an object. *)
Lemma process_author_cases (d : gmap string json) :
  (truthy (dict_get d "author") = false
   ∧ QuoteSchema.process_author (JObj d)
     = Ok (JObj (<["author" := JObj ∅]> d)))
  ∨ (∃ v, d !! "author" = Some v ∧ truthy v = true ∧ is_string v = false
          ∧ QuoteSchema.process_author (JObj d) = Raise AttributeError)
  ∨ (∃ s, d !! "author" = Some (JStr s) ∧ s ≠ "" ∧ count_spaces s ≠ 1
          ∧ QuoteSchema.process_author (JObj d) = Raise ValueError)
  ∨ (∃ s f l, d !! "author" = Some (JStr s) ∧ s ≠ "" ∧ count_spaces s = 1
              ∧ split_space s = [f; l]
              ∧ QuoteSchema.process_author (JObj d)
                = Ok (JObj (<["author" := author_object f l]> d))).
Proof.
  destruct (truthy (dict_get d "author")) eqn:Ht.
  - right. unfold dict_get in Ht.
    destruct (d !! "author") as [v|] eqn:Hd; [|done]. simpl in Ht.
    destruct (is_string v) eqn:Hs.
    + destruct v as [| | |s| |]; try done. right.
      pose proof (proj1 (truthy_JStr s) Ht) as Hne.
      destruct (decide (count_spaces s = 1)) as [H1|H1].
      * right. destruct (split_space_one s H1) as (f & l & Hfl).
        exists s, f, l.
        repeat split; try done. by apply (process_author_split d s f l).
      * left. exists s. repeat split; try done.
        by apply (process_author_raises d s).
    + left. exists v. repeat split; try done.
      by apply (process_author_nonstring d v).
  - left. split; [done|]. by apply process_author_falsy.
Qed.

(** ** The field loop, by cases *)

Lemma unmarshal_content_ok (d : gmap string json) acc :
  content_ok (d !! "content") = true →
  ∃ c, d !! "content" = Some (JStr c) ∧ c ≠ ""
       ∧ unmarshal_field "content" true (Str_deserialize must_not_be_blank) d acc
         = Ok (<["content" := JStr c]> acc.1, acc.2).
Proof.
  unfold content_ok. destruct (d !! "content") as [v|] eqn:Hd; [|done].
  destruct v as [| | |c| |]; try done.
  destruct (String.eqb_spec c "") as [->|Hc]; [done|]. intros _.
  exists c. repeat split; try done. by apply unmarshal_content_text.
Qed.

Lemma unmarshal_content_bad (d : gmap string json) acc :
  content_ok (d !! "content") = false →
  ∃ msgs, unmarshal_field "content" true (Str_deserialize must_not_be_blank) d acc
          = Ok (acc.1, <["content" := msgs]> acc.2).
Proof.
  unfold content_ok, unmarshal_field. destruct acc as [data errors].
  destruct (d !! "content") as [v|] eqn:Hd; [|by eexists].
  destruct v as [| | |c| |]; try by eexists.
  destruct (String.eqb_spec c "") as [->|Hc]; [|done]. by eexists.
Qed.

(** What loading an object gives when the hook has left the empty author. *)
Lemma load_blank_author (d : gmap string json) :
  QuoteSchema.process_author (JObj d) = Ok (JObj (<["author" := JObj ∅]> d)) →
  QuoteSchema.load (JObj d)
  = unmarshal_field "content" true (Str_deserialize must_not_be_blank)
      (<["author" := JObj ∅]> d) (∅, author_blank_error).
Proof.
  intros Hhook. rewrite (load_after_hook d _ Hhook). unfold load_fields.
  by rewrite unmarshal_author_empty by apply lookup_insert_eq.
Qed.

(** What loading an object gives when the hook has split the name. *)
Lemma load_split_author (d : gmap string json) (f l : string) :
  QuoteSchema.process_author (JObj d)
  = Ok (JObj (<["author" := author_object f l]> d)) →
  QuoteSchema.load (JObj d)
  = unmarshal_field "content" true (Str_deserialize must_not_be_blank)
      (<["author" := author_object f l]> d)
      ({[ "author" := author_object f l ]}, ∅).
Proof.
  intros Hhook. rewrite (load_after_hook d _ Hhook). unfold load_fields.
  by rewrite (unmarshal_author_pair _ f l) by apply lookup_insert_eq.
Qed.

Lemma content_after_hook (d : gmap string json) (a : json) :
  (<["author" := a]> d) !! "content" = d !! "content".
Proof. by rewrite lookup_insert_ne. Qed.

Lemma has_key_true (m : gmap string json) (key : string) :
  is_Some (m !! key) → has_key m key = true.
Proof. intros H. by apply bool_decide_eq_true_2. Qed.

Lemma has_key_false (m : gmap string json) (key : string) :
  m !! key = None → has_key m key = false.
Proof.
  intros H. apply bool_decide_eq_false_2. rewrite H. by intros [v Hv].
Qed.

(** ** The POST handler on objects, by cases *)

Lemma new_quote_blank_author (d : gmap string json) (w : World) :
  truthy (JObj d) = true → truthy (dict_get d "author") = false →
  ∃ errors,
    (new_quote (JObj d) w).1 = Ok {| status := 422; body := JObj errors |}
    ∧ errors ≠ ∅
    ∧ has_key errors "author" = true
    ∧ has_key errors "content" = negb (content_ok (d !! "content")).
Proof.
  intros Ht Hfalsy.
  pose proof (load_blank_author d (process_author_falsy d Hfalsy)) as Hload.
  destruct (content_ok (d !! "content")) eqn:Hc.
  - destruct (unmarshal_content_ok (<["author" := JObj ∅]> d)
                (∅, author_blank_error)) as (c & _ & _ & Hstep).
    { by rewrite content_after_hook. }
    rewrite Hstep in Hload. exists author_blank_error.
    rewrite (new_quote_errors _ _ _ w Ht Hload) by done.
    split_and!; done.
  - destruct (unmarshal_content_bad (<["author" := JObj ∅]> d)
                (∅, author_blank_error)) as (msgs & Hstep).
    { by rewrite content_after_hook. }
    rewrite Hstep in Hload. eexists.
    rewrite (new_quote_errors _ _ _ w Ht Hload) by apply insert_non_empty.
    split_and!.
    + done.
    + apply insert_non_empty.
    + apply has_key_true. rewrite lookup_insert_ne by done. by eexists.
    + apply has_key_true. rewrite lookup_insert_eq. by eexists.
Qed.

Lemma new_quote_split_author (d : gmap string json) (s : string) (w : World) :
  d !! "author" = Some (JStr s) → count_spaces s = 1 →
  if content_ok (d !! "content")
  then (new_quote (JObj d) w).1 = Raise AttributeError
  else ∃ errors,
         (new_quote (JObj d) w).1 = Ok {| status := 422; body := JObj errors |}
         ∧ errors ≠ ∅
         ∧ has_key errors "author" = false
         ∧ has_key errors "content" = true.
Proof.
  intros Hd H1. destruct (split_space_one s H1) as (f & l & Hfl).
  pose proof (truthy_JObj d _ _ Hd) as Ht.
  pose proof (load_split_author d f l
                (process_author_split d s f l Hd (count_spaces_nonempty s H1) Hfl))
    as Hload.
  destruct (content_ok (d !! "content")) eqn:Hc.
  - destruct (unmarshal_content_ok (<["author" := author_object f l]> d)
                ({[ "author" := author_object f l ]}, ∅)) as (c & _ & _ & Hstep).
    { by rewrite content_after_hook. }
    rewrite Hstep in Hload.
    rewrite (new_quote_loaded _ _ f l w Ht Hload); [done|].
    rewrite lookup_insert_ne by done. apply lookup_singleton_eq.
  - destruct (unmarshal_content_bad (<["author" := author_object f l]> d)
                ({[ "author" := author_object f l ]}, ∅)) as (msgs & Hstep).
    { by rewrite content_after_hook. }
    rewrite Hstep in Hload. eexists.
    rewrite (new_quote_errors _ _ _ w Ht Hload) by apply insert_non_empty.
    split_and!.
    + done.
    + apply insert_non_empty.
    + apply has_key_false. by rewrite lookup_insert_ne.
    + apply has_key_true. rewrite lookup_insert_eq. by eexists.
Qed.

Lemma new_quote_hook_raises (d : gmap string json) (e : exn) (w : World) :
  truthy (JObj d) = true → QuoteSchema.process_author (JObj d) = Raise e →
  (new_quote (JObj d) w).1 = Raise e.
Proof.
  intros Ht Hhook.
  by rewrite (new_quote_load_raises _ e w Ht (load_hook_raises _ e Hhook)).
Qed.

Lemma new_quote_non_object (j : json) (w : World) :
  truthy j = true → is_object j = false →
  (new_quote j w).1 = Raise AttributeError.
Proof.
  intros Ht Hobj.
  rewrite (new_quote_load_raises j AttributeError w Ht); [done|].
  apply load_hook_raises. by destruct j.
Qed.

(** Every way a POST can end. *)
Lemma new_quote_cases (j : json) (w : World) :
  (truthy j = false ∧ (new_quote j w).1 = Ok no_input_response)
  ∨ (truthy j = true
     ∧ ∃ errors, errors ≠ ∅
                 ∧ (new_quote j w).1 = Ok {| status := 422; body := JObj errors |})
  ∨ (truthy j = true
     ∧ ((new_quote j w).1 = Raise AttributeError
        ∨ (new_quote j w).1 = Raise ValueError)).
Proof.
  destruct (truthy j) eqn:Ht.
  - right. destruct (is_object j) eqn:Hobj.
    + destruct j as [| | | | |d]; try done.
      destruct (process_author_cases d)
        as [[Hf _]|[(v & Hd & Hv & Hs & Hr)|[(s & Hd & Hs & Hn & Hr)
           |(s & f & l & Hd & Hs & H1 & _)]]].
      * destruct (new_quote_blank_author d w Ht Hf) as (errors & Hr & He & _).
        left. split; [done|]. by exists errors.
      * right. split; [done|]. left. by apply new_quote_hook_raises.
      * right. split; [done|]. right. by apply new_quote_hook_raises.
      * pose proof (new_quote_split_author d s w Hd H1) as Hr.
        destruct (content_ok (d !! "content")).
        -- right. split; [done|]. by left.
        -- destruct Hr as (errors & Hr & He & _).
           left. split; [done|]. by exists errors.
    + right. split; [done|]. left. by apply new_quote_non_object.
  - left. split; [done|]. by rewrite new_quote_falsy.
Qed.

(** ** Properties of the routes *)

(** X1: GET /quotes/ is always answered 200, with one entry per stored
    quote, in the order of the table; each entry has exactly the keys
    ["id"] and ["content"], holding the row's id as a number and the row's
    content as a string (null when the column is null), and nothing else of
    the quote (no author, no timestamp). *)
Theorem get_quotes_lists_every_quote (w : World) :
  ∃ entries : list (gmap string json),
    (handle GET_quotes w).1
    = Ok {| status := 200;
            body := JObj {[ "quotes" := JArr (JObj <$> entries) ]} |}
    ∧ Forall2 (λ q m, dom m = ({[ "id"; "content" ]} : gset string)
                      ∧ m !! "id"
                        = Some (match Quote.id q with
                                | Some i => JNum i
                                | None => JNull
                                end)
                      ∧ m !! "content"
                        = Some (match Quote.content q with
                                | Some c => JStr c
                                | None => JNull
                                end))
              (quote_table (database w)) entries.
Proof.
  exists (quote_entry <$> quote_table (database w)). split.
  - rewrite handle_route. simpl route. unfold get_quotes.
    unfold QuoteSchema.dump_many_only. by rewrite <- list_fmap_compose.
  - apply Forall2_fmap_r, Forall_Forall2_diag, Forall_forall.
    intros q _. unfold quote_entry. split_and!.
    + rewrite !dom_insert_L, dom_empty_L. set_solver.
    + rewrite lookup_insert_eq. by destruct (Quote.id q).
    + rewrite lookup_insert_ne by done. rewrite lookup_insert_eq.
      by destruct (Quote.content q).
Qed.

(** X2: no request that reaches a view changes the database, whatever the
    route, the id and the body. *)
Theorem no_request_changes_the_store (r : request) (w : World) :
  database (handle r w).2 = database w.
Proof.
  rewrite handle_database.
  assert ((route r (with_session w)).2 = with_session w) as ->; [|done].
  destruct r as [|pk| |pk|j]; simpl route.
  - by rewrite get_authors_raises.
  - by rewrite get_author_raises.
  - reflexivity.
  - by rewrite get_quote_raises.
  - apply new_quote_keeps_world.
Qed.

(** X4: whatever [request.get_json()] has returned, the POST view ends in
    exactly one of three ways: 400 with the message "No input data
    provided" when the value is falsy ([None], [null], [false], [0], the
    empty string, list or object); 422 with a non-empty error map; or an
    uncaught [AttributeError] or [ValueError].  It never answers 200. *)
Theorem post_outcomes (j : json) (w : World) :
  (truthy j = false
   ∧ (new_quote j w).1
     = Ok {| status := 400;
             body := JObj {[ "message" := JStr "No input data provided" ]} |})
  ∨ (truthy j = true
     ∧ ∃ errors, errors ≠ ∅
                 ∧ (new_quote j w).1 = Ok {| status := 422; body := JObj errors |})
  ∨ (truthy j = true
     ∧ ((new_quote j w).1 = Raise AttributeError
        ∨ (new_quote j w).1 = Raise ValueError)).
Proof. apply new_quote_cases. Qed.

(** X5: a truthy body that is not a JSON object (a list, a number, a
    string, [true]) ends in an uncaught [AttributeError]: the hook calls
    [get] on it. *)
Theorem non_object_body_raises (j : json) (w : World) :
  truthy j = true → is_object j = false →
  QuoteSchema.load j = Raise AttributeError
  ∧ (new_quote j w).1 = Raise AttributeError.
Proof.
  intros Ht Hobj. split; [|by apply new_quote_non_object].
  apply load_hook_raises. by destruct j.
Qed.

Lemma non_object_body_raises_witness :
  QuoteSchema.load (JArr [JStr "Hi"]) = Raise AttributeError
  ∧ (new_quote (JArr [JStr "Hi"]) empty_world).1 = Raise AttributeError.
Proof.
  apply (non_object_body_raises (JArr [JStr "Hi"]) empty_world); reflexivity.
Defined.

(** X6: an ["author"] that is truthy but not a string ends in an uncaught
    [AttributeError]: the hook calls [split] on it.  In particular the
    nested form with [first] and [last], which the [author] field itself
    describes, is not accepted on input. *)
Theorem non_string_author_raises
    (d : gmap string json) (v : json) (w : World) :
  d !! "author" = Some v → truthy v = true → is_string v = false →
  QuoteSchema.process_author (JObj d) = Raise AttributeError
  ∧ (new_quote (JObj d) w).1 = Raise AttributeError.
Proof.
  intros Hd Ht Hs.
  pose proof (process_author_nonstring d v Hd Ht Hs) as Hhook.
  split; [done|]. apply new_quote_hook_raises; [|done].
  by eapply truthy_JObj.
Qed.

Lemma non_string_author_raises_witness :
  QuoteSchema.process_author
    (JObj (<["author" := author_object "Tim" "Peters"]> tim_peters_body))
  = Raise AttributeError
  ∧ (new_quote
       (JObj (<["author" := author_object "Tim" "Peters"]> tim_peters_body))
       empty_world).1 = Raise AttributeError.
Proof.
  apply (non_string_author_raises
           (<["author" := author_object "Tim" "Peters"]> tim_peters_body)
           (author_object "Tim" "Peters") empty_world); reflexivity.
Defined.

(** ** Properties of the schemas *)

(** X7: an author string with exactly one space and a non-empty content
    load without error; the two halves loaded as [first] and [last] contain
    no space and give back the author string when joined by a space.  The
    halves may be empty: the blank check sees the nested object, not the
    names. *)
Theorem load_one_space_author (d : gmap string json) (s c : string) :
  d !! "author" = Some (JStr s) → count_spaces s = 1 →
  d !! "content" = Some (JStr c) → truthy (JStr c) = true →
  ∃ f l,
    QuoteSchema.load (JObj d)
    = Ok (<["content" := JStr c]> {[ "author" := author_object f l ]}, ∅)
    ∧ f +:+ " " +:+ l = s
    ∧ count_spaces f = 0 ∧ count_spaces l = 0.
Proof.
  intros Hd H1 Hc Hblank. destruct (split_space_one s H1) as (f & l & Hfl).
  exists f, l. split; [|by apply split_space_pair].
  rewrite (load_split_author d f l
             (process_author_split d s f l Hd (count_spaces_nonempty s H1) Hfl)).
  rewrite (unmarshal_content_text _ c); [done| |].
  - by rewrite content_after_hook.
  - by apply truthy_JStr.
Qed.

Lemma load_one_space_author_witness :
  ∃ f l,
    QuoteSchema.load (JObj (<["content" := JStr " "]> {[ "author" := JStr " " ]}))
    = Ok (<["content" := JStr " "]> {[ "author" := author_object f l ]}, ∅)
    ∧ f +:+ " " +:+ l = " "
    ∧ count_spaces f = 0 ∧ count_spaces l = 0.
Proof.
  apply (load_one_space_author
           (<["content" := JStr " "]> {[ "author" := JStr " " ]}) " " " ");
    reflexivity.
Defined.

(** X8: when the hook completes it has changed nothing but the ["author"]
    entry, and that entry is then an object: the empty one, or one with
    exactly the two strings [first] and [last]. *)
Theorem process_author_only_sets_author (d : gmap string json) (j : json) :
  QuoteSchema.process_author (JObj d) = Ok j →
  ∃ (d' : gmap string json) (a : json),
    j = JObj d'
    ∧ d' !! "author" = Some a
    ∧ (a = JObj ∅ ∨ ∃ f l, a = author_object f l)
    ∧ delete "author" d' = delete "author" d.
Proof.
  intros H.
  destruct (process_author_cases d)
    as [[_ Hr]|[(v & _ & _ & _ & Hr)|[(s & _ & _ & _ & Hr)
       |(s & f & l & _ & _ & _ & _ & Hr)]]];
    rewrite Hr in H; try done; injection H as <-.
  - eexists _, _. split_and!; [done|apply lookup_insert_eq|by left|].
    apply delete_insert_eq.
  - eexists _, _. split_and!; [done|apply lookup_insert_eq|by eauto|].
    apply delete_insert_eq.
Qed.

Lemma process_author_only_sets_author_witness :
  ∃ (d' : gmap string json) (a : json),
    JObj (<["author" := author_object "Tim" "Peters"]> tim_peters_body) = JObj d'
    ∧ d' !! "author" = Some a
    ∧ (a = JObj ∅ ∨ ∃ f l, a = author_object f l)
    ∧ delete "author" d' = delete "author" tim_peters_body.
Proof.
  apply (process_author_only_sets_author tim_peters_body). reflexivity.
Defined.

(** X9: whenever loading completes, each of the two fields ["author"] and
    ["content"] is in exactly one of the loaded data and the error map, and
    nothing else is in either: what a client sends as [id], [posted_at] or
    under any other key is never loaded.  A loaded content is the request's
    content and is a non-empty string. *)
Theorem load_sorts_the_two_fields
    (d data errors : gmap string json) :
  QuoteSchema.load (JObj d) = Ok (data, errors) →
  dom data ∪ dom errors = ({[ "author"; "content" ]} : gset string)
  ∧ dom data ∩ dom errors = (∅ : gset string)
  ∧ (data !! "content" = None
     ∨ ∃ c, c ≠ "" ∧ data !! "content" = Some (JStr c)
            ∧ d !! "content" = Some (JStr c)).
Proof.
  intros H.
  destruct (process_author_cases d)
    as [[_ Hr]|[(v & _ & _ & _ & Hr)|[(s & _ & _ & _ & Hr)
       |(s & f & l & _ & _ & _ & _ & Hr)]]].
  - rewrite (load_blank_author d Hr) in H.
    destruct (content_ok (d !! "content")) eqn:Hc.
    + destruct (unmarshal_content_ok (<["author" := JObj ∅]> d)
                  (∅, author_blank_error)) as (c & Hdc & Hne & Hstep).
      { by rewrite content_after_hook. }
      rewrite content_after_hook in Hdc.
      rewrite Hstep in H. injection H as <- <-. simpl. split_and!.
      * solve_field_keys.
      * solve_field_keys.
      * right. exists c. by rewrite lookup_insert_eq.
    + destruct (unmarshal_content_bad (<["author" := JObj ∅]> d)
                  (∅, author_blank_error)) as (msgs & Hstep).
      { by rewrite content_after_hook. }
      rewrite Hstep in H. injection H as <- <-. simpl. split_and!.
      * solve_field_keys.
      * solve_field_keys.
      * by left.
  - by rewrite (load_hook_raises _ _ Hr) in H.
  - by rewrite (load_hook_raises _ _ Hr) in H.
  - rewrite (load_split_author d f l Hr) in H.
    destruct (content_ok (d !! "content")) eqn:Hc.
    + destruct (unmarshal_content_ok (<["author" := author_object f l]> d)
                  ({[ "author" := author_object f l ]}, ∅))
        as (c & Hdc & Hne & Hstep).
      { by rewrite content_after_hook. }
      rewrite content_after_hook in Hdc.
      rewrite Hstep in H. injection H as <- <-. simpl. split_and!.
      * solve_field_keys.
      * solve_field_keys.
      * right. exists c. by rewrite lookup_insert_eq.
    + destruct (unmarshal_content_bad (<["author" := author_object f l]> d)
                  ({[ "author" := author_object f l ]}, ∅)) as (msgs & Hstep).
      { by rewrite content_after_hook. }
      rewrite Hstep in H. injection H as <- <-. simpl. split_and!.
      * solve_field_keys.
      * solve_field_keys.
      * by left.
Qed.

Lemma load_sorts_the_two_fields_witness :
  dom ({[ "author" := author_object "Tim" "Peters" ]} : gmap string json)
  ∪ dom ({[ "content" := messages "Not a valid string." ]} : gmap string json)
  = ({[ "author"; "content" ]} : gset string)
  ∧ dom ({[ "author" := author_object "Tim" "Peters" ]} : gmap string json)
    ∩ dom ({[ "content" := messages "Not a valid string." ]} : gmap string json)
    = (∅ : gset string)
  ∧ (({[ "author" := author_object "Tim" "Peters" ]} : gmap string json)
       !! "content" = None
     ∨ ∃ c, c ≠ ""
            ∧ ({[ "author" := author_object "Tim" "Peters" ]} : gmap string json)
                !! "content" = Some (JStr c)
            ∧ (<["id" := JNum 99]> (<["content" := JNum 5]> tim_peters_body))
                !! "content" = Some (JStr c)).
Proof.
  apply (load_sorts_the_two_fields
           (<["id" := JNum 99]> (<["content" := JNum 5]> tim_peters_body))).
  reflexivity.
Defined.

(** X10: the validation table of the POST route, for a non-empty object
    whose author the hook accepts.  The request is answered 422 exactly when
    the author is absent or falsy, or the content is absent or is not a
    non-empty string; the error map then names ["author"] exactly in the
    first case and ["content"] exactly in the second, both when both hold.
    Otherwise validation passes, and the handler raises at
    [Author.query]. *)
Theorem validation_table (d : gmap string json) (w : World) :
  truthy (JObj d) = true →
  author_accepted (dict_get d "author") = true →
  if truthy (dict_get d "author") && content_ok (d !! "content")
  then (new_quote (JObj d) w).1 = Raise AttributeError
  else ∃ errors,
         (new_quote (JObj d) w).1 = Ok {| status := 422; body := JObj errors |}
         ∧ has_key errors "author" = negb (truthy (dict_get d "author"))
         ∧ has_key errors "content" = negb (content_ok (d !! "content")).
Proof.
  intros Ht Hacc. destruct (truthy (dict_get d "author")) eqn:Hauthor.
  - unfold author_accepted in Hacc. rewrite Hauthor in Hacc. simpl in Hacc.
    unfold dict_get in Hacc, Hauthor.
    destruct (d !! "author") as [v|] eqn:Hd; [|done].
    destruct v as [| | |s| |]; try done. simpl in Hacc.
    apply Nat.eqb_eq in Hacc.
    pose proof (new_quote_split_author d s w Hd Hacc) as Hr.
    destruct (content_ok (d !! "content")); simpl; [done|].
    destruct Hr as (errors & Hr & _ & Ha & Hc). by exists errors.
  - simpl. destruct (new_quote_blank_author d w Ht Hauthor)
      as (errors & Hr & _ & Ha & Hc). by exists errors.
Qed.

Lemma validation_table_witness :
  (∃ errors,
     (new_quote (JObj {[ "content" := JNull ]}) empty_world).1
     = Ok {| status := 422; body := JObj errors |}
     ∧ has_key errors "author" = true
     ∧ has_key errors "content" = true)
  ∧ (∃ errors,
       (new_quote (JObj (<["content" := JStr ""]> tim_peters_body)) empty_world).1
       = Ok {| status := 422; body := JObj errors |}
       ∧ has_key errors "author" = false
       ∧ has_key errors "content" = true)
  ∧ (new_quote (JObj tim_peters_body) empty_world).1 = Raise AttributeError.
Proof.
  split_and!.
  - exact (validation_table {[ "content" := JNull ]} empty_world
             eq_refl eq_refl).
  - exact (validation_table (<["content" := JStr ""]> tim_peters_body)
             empty_world eq_refl eq_refl).
  - exact (validation_table tim_peters_body empty_world eq_refl eq_refl).
Defined.

(** X11: dumping an author whose names are not null and loading the dump
    back gives the same [first] and [last], without error; the dumped [id]
    and [formatted_name] are not loaded. *)
Theorem author_dump_load_round_trip (i : option Z) (f l : string) :
  ∃ m,
    AuthorSchema.dump (Author.mk i (Some f) (Some l)) = Ok m
    ∧ AuthorSchema.load (JObj m)
      = Ok (<["last" := JStr l]> {[ "first" := JStr f ]}, ∅).
Proof.
  eexists. split; [apply dump_author_fields|].
  reflexivity.
Qed.

(** X12: a dumped quote that has an author cannot be loaded back: the dump
    carries the author as a nested object, on which the hook raises
    [AttributeError]. *)
Theorem quote_dump_does_not_load
    (db : Db) (quote : Quote.obj) (a : Author.obj) :
  related_author db quote = Some a →
  ∃ m,
    QuoteSchema.dump db quote = Ok m
    ∧ m !! "author" = Some (JObj (author_fields a))
    ∧ QuoteSchema.load (JObj m) = Raise AttributeError.
Proof.
  intros Hrel. unfold QuoteSchema.dump. rewrite Hrel, dump_author_fields.
  eexists. split; [reflexivity|].
  assert (∀ m : gmap string json,
            (<["author" := JObj (author_fields a)]> m) !! "author"
            = Some (JObj (author_fields a))) as Hlook
    by (intros m; apply lookup_insert_eq).
  split.
  - rewrite lookup_insert_ne by done. apply Hlook.
  - apply load_hook_raises.
    eapply (process_author_nonstring _ (JObj (author_fields a))); [|
      eapply truthy_JObj, author_fields_formatted_name|done].
    rewrite lookup_insert_ne by done. apply Hlook.
Qed.

Lemma quote_dump_does_not_load_witness :
  ∃ m,
    QuoteSchema.dump (database empty_world)
      (Quote.mk (Some 1%Z) (Some "Hi") None
         (Some (Author.mk (Some 1%Z) (Some "Tim") (Some "Peters")))
         (Some (clock empty_world)))
    = Ok m
    ∧ m !! "author"
      = Some (JObj (author_fields (Author.mk (Some 1%Z) (Some "Tim") (Some "Peters"))))
    ∧ QuoteSchema.load (JObj m) = Raise AttributeError.
Proof.
  apply (quote_dump_does_not_load (database empty_world)
           (Quote.mk (Some 1%Z) (Some "Hi") None
              (Some (Author.mk (Some 1%Z) (Some "Tim") (Some "Peters")))
              (Some (clock empty_world)))).
  reflexivity.
Defined.
